(** * Fitness tracker module ([homework.py]): model and verified properties

    The module computes distance, mean speed and burnt calories of three
    kinds of workouts and renders the result as one line of text.

    Modelling conventions.
    - The module is modelled twice.  In the first model Python numbers
      ([int] and [float]) are embedded in the rationals [Q]: arithmetic is
      exact, values are compared with [==] ([Qeq]), and division ([/]) and
      floor division ([//]) by zero raise [ZeroDivisionError], as in Python.
      It carries the properties that hold of the program up to rounding.
      In the second model, [B64], a number is an unbounded [int] or an
      IEEE 754 binary64 [float] and every operation rounds, overflows and
      propagates infinities and NaNs as CPython's does.  It carries the
      properties that depend on which side of a floor a rounded value
      falls, on [OverflowError], or on non-finite values.
    - Python strings are [string]s of UTF-8 bytes.
    - Exceptions are values of [exn]; a call either returns ([Ok]) or raises
      ([Raise]).  The messages of [ZeroDivisionError], [TypeError] and
      [IndexError] are left out.  [Unmodelled] marks the features of
      [str.format] that the model does not cover.
    - A method is a computation over the receiving object [self]: it gets the
      object, and gives back an outcome together with the object as the call
      leaves it. *)

From stdpp Require Import gmap strings.
From Stdlib Require Import QArith Qround Qabs Qpower ZArith Lia Lqa.
From Stdlib Require Import Ascii String DecimalString DecimalN DecimalPos.
From Stdlib Require Floats.

#[local] Set Warnings "-inexact-float".

Local Open Scope string_scope.

(** ** Exceptions and outcomes *)

Inductive exn : Type :=
| ZeroDivisionError
| OverflowError
| NotImplementedError (msg : string)
| ValueError (msg : string)
| TypeError
| AttributeError (name : string)
| KeyError (key : string)
| IndexError
| Unmodelled (feature : string).

Inductive result (A : Type) : Type :=
| Ok (a : A)
| Raise (e : exn).

Arguments Ok {A} a.
Arguments Raise {A} e.

Definition result_bind {A B : Type} (r : result A) (k : A -> result B)
  : result B :=
  match r with
  | Ok a => k a
  | Raise e => Raise e
  end.

Definition result_map {A B : Type} (f : A -> B) (r : result A) : result B :=
  result_bind r (fun a => Ok (f a)).

(** ** Python arithmetic on numbers *)

Module Py.

(** [a / b] *)
Definition truediv (a b : Q) : result Q :=
  if Qeq_bool b 0 then Raise ZeroDivisionError else Ok (a / b)%Q.

(** [a // b]: the floor of the quotient, as a number. *)
Definition floordiv (a b : Q) : result Q :=
  if Qeq_bool b 0 then Raise ZeroDivisionError
  else Ok (inject_Z (Qfloor (a / b))).

(** [a ** n] for an integer constant [n]. *)
Definition pow (a : Q) (n : Z) : Q := (a ^ n)%Q.

End Py.

(** ** [str.format]

    The part of Python's format mini-language that [string_ru] uses:
    literal text, the escapes [{{] and [}}], and replacement fields
    [{name}] and [{name:.Nf}] looked up among keyword arguments. *)

Inductive value : Type :=
| VStr (s : string)
| VNum (q : Q).

Module Format.

Definition is_digit (c : ascii) : bool :=
  (48 <=? nat_of_ascii c)%nat && (nat_of_ascii c <=? 57)%nat.

Fixpoint all_digits (s : string) : bool :=
  match s with
  | "" => true
  | String c rest => is_digit c && all_digits rest
  end.

Definition digit_char (d : Z) : ascii := ascii_of_nat (48 + Z.to_nat d).

(** Decimal numeral of a natural number. *)
Definition dec_string (n : Z) : string :=
  NilZero.string_of_uint (N.to_uint (Z.to_N n)).

(** Nearest integer, ties to the even one ([x] is not negative). *)
Definition round_half_even (x : Q) : Z :=
  let f := Qfloor x in
  match (x - inject_Z f ?= 1 # 2)%Q with
  | Lt => f
  | Gt => (f + 1)%Z
  | Eq => if Z.even f then f else (f + 1)%Z
  end.

(** The [k] low decimal digits of [m], zero padded. *)
Fixpoint frac_digits (k : nat) (m : Z) : string :=
  match k with
  | O => ""
  | S k' => frac_digits k' (m / 10) ++ String (digit_char (m mod 10)) ""
  end.

(** [format(q, '.{prec}f')] *)
Definition format_fixed (prec : nat) (q : Q) : string :=
  let scale := (10 ^ Z.of_nat prec)%Z in
  let n := round_half_even (Qabs q * inject_Z scale) in
  let sign := if Qle_bool 0 q then "" else "-" in
  let int_part := dec_string (n / scale) in
  match prec with
  | O => sign ++ int_part
  | S _ => sign ++ int_part ++ "." ++ frac_digits prec (n mod scale)
  end.

(** The text before the first point, and the text after it. *)
Fixpoint split_dot (s : string) : option (string * string) :=
  match s with
  | "" => None
  | String c rest =>
      if (c =? ".")%char then Some ("", rest)
      else match split_dot rest with
           | Some (i, f) => Some (String c i, f)
           | None => None
           end
  end.

Definition strip_sign (s : string) : string :=
  match s with
  | "" => s
  | String c rest => if (c =? "-")%char then rest else s
  end.

(** The shape of a fixed-point numeral: an optional minus sign, one or
    more digits, a point, and [prec] digits. *)
Definition fixed_shape (prec : nat) (s : string) : bool :=
  match split_dot (strip_sign s) with
  | Some (int_part, frac) =>
      negb (int_part =? "")%string && all_digits int_part
      && all_digits frac && (String.length frac =? prec)%nat
  | None => false
  end.

(** A format spec [.Nf]: its precision [N]. *)
Fixpoint parse_digits_f (s : string) (acc : nat) (seen : bool)
  : option nat :=
  match s with
  | "" => None
  | String c rest =>
      if is_digit c
      then parse_digits_f rest (10 * acc + (nat_of_ascii c - 48)) true
      else if (c =? "f")%char && seen && (rest =? "")%string
           then Some acc else None
  end.

Definition parse_fixed_spec (spec : string) : option nat :=
  match spec with
  | String "." rest => parse_digits_f rest 0 false
  | _ => None
  end.

(** [format(v, spec)] *)
Definition format_value (v : value) (spec : string) : result string :=
  match v with
  | VStr s =>
      if (spec =? "")%string then Ok s
      else match parse_fixed_spec spec with
           | Some _ =>
               Raise (ValueError
                 "Unknown format code 'f' for object of type 'str'")
           | None => Raise (Unmodelled "format spec")
           end
  | VNum q =>
      match parse_fixed_spec spec with
      | Some prec => Ok (format_fixed prec q)
      | None => Raise (Unmodelled "format spec")
      end
  end.

Definition kwargs : Type := list (string * value).

Fixpoint lookup_kw (kw : kwargs) (name : string) : option value :=
  match kw with
  | [] => None
  | (k, v) :: kw' => if (k =? name)%string then Some v
                     else lookup_kw kw' name
  end.

(** A replacement field [{name:spec}]. *)
Definition format_field (kw : kwargs) (name spec : string)
  : result string :=
  if all_digits name then Raise IndexError
  else match lookup_kw kw name with
       | Some v => format_value v spec
       | None => Raise (KeyError name)
       end.

Inductive mode : Type :=
| InText
| AfterClose
| InName (name : string)
| InSpec (name spec : string).

Definition snoc (s : string) (c : ascii) : string := s ++ String c "".

(** The scan of the template, left to right. *)
Fixpoint format_from (kw : kwargs) (md : mode) (s : string)
  : result string :=
  match s with
  | "" =>
      match md with
      | InText => Ok ""
      | AfterClose =>
          Raise (ValueError "Single '}' encountered in format string")
      | InName "" =>
          Raise (ValueError "Single '{' encountered in format string")
      | InName _ | InSpec _ _ =>
          Raise (ValueError "expected '}' before end of string")
      end
  | String c rest =>
      match md with
      | InText =>
          if (c =? "{")%char then format_from kw (InName "") rest
          else if (c =? "}")%char then format_from kw AfterClose rest
          else result_map (String c) (format_from kw InText rest)
      | AfterClose =>
          if (c =? "}")%char
          then result_map (String c) (format_from kw InText rest)
          else Raise (ValueError "Single '}' encountered in format string")
      | InName name =>
          if (c =? "{")%char then
            if (name =? "")%string
            then result_map (String c) (format_from kw InText rest)
            else Raise (ValueError "unexpected '{' in field name")
          else if (c =? "}")%char then
            result_bind (format_field kw name "") (fun piece =>
            result_map (append piece) (format_from kw InText rest))
          else if (c =? ":")%char then format_from kw (InSpec name "") rest
          else if (c =? "!")%char || (c =? ".")%char || (c =? "[")%char
          then Raise (Unmodelled "conversion or compound field name")
          else format_from kw (InName (snoc name c)) rest
      | InSpec name spec =>
          if (c =? "}")%char then
            result_bind (format_field kw name spec) (fun piece =>
            result_map (append piece) (format_from kw InText rest))
          else if (c =? "{")%char
          then Raise (Unmodelled "nested replacement field")
          else format_from kw (InSpec name (snoc spec c)) rest
      end
  end.

(** [template.format] applied to the keyword arguments [kw] *)
Definition format (template : string) (kw : kwargs) : result string :=
  format_from kw InText template.

End Format.

(** ** [InfoMessage] *)

Module InfoMessage.

Definition string_ru_default : string :=
  "Тип тренировки: {training_type}; " ++
  "Длительность: {duration:.3f} ч.; " ++
  "Дистанция: {distance:.3f} км; " ++
  "Ср. скорость: {speed:.3f} км/ч; " ++
  "Потрачено ккал: {calories:.3f}.".

Record t : Type := mk {
  training_type : string;
  duration : Q;
  distance : Q;
  speed : Q;
  calories : Q;
  string_ru : string
}.

(** The constructor called with the five metrics: [string_ru] takes its
    default. *)
Definition init (training_type : string)
    (duration distance speed calories : Q) : t :=
  mk training_type duration distance speed calories string_ru_default.

(** [dataclasses.asdict(self)] *)
Definition asdict (self : t) : Format.kwargs :=
  [ ("training_type", VStr (training_type self));
    ("duration", VNum (duration self));
    ("distance", VNum (distance self));
    ("speed", VNum (speed self));
    ("calories", VNum (calories self));
    ("string_ru", VStr (string_ru self)) ].

Definition get_message (self : t) : result string :=
  let message := Format.format (string_ru self) (asdict self) in
  message.

End InfoMessage.

(** ** Workout objects

    An instance is its class together with the attributes [__init__] stored.
    [Training], [Running]: [action], [duration], [weight];
    [SportsWalking] adds [height]; [Swimming] adds [length_pool] and
    [count_pool]. *)

Inductive workout : Type :=
| Training (action duration weight : Q)
| Running (action duration weight : Q)
| SportsWalking (action duration weight height : Q)
| Swimming (action duration weight length_pool count_pool : Q).

(** [self.__class__.__name__] *)
Definition class_name (self : workout) : string :=
  match self with
  | Training _ _ _ => "Training"
  | Running _ _ _ => "Running"
  | SportsWalking _ _ _ _ => "SportsWalking"
  | Swimming _ _ _ _ _ => "Swimming"
  end.

Definition action (self : workout) : Q :=
  match self with
  | Training a _ _ | Running a _ _ | SportsWalking a _ _ _
  | Swimming a _ _ _ _ => a
  end.

Definition duration (self : workout) : Q :=
  match self with
  | Training _ d _ | Running _ d _ | SportsWalking _ d _ _
  | Swimming _ d _ _ _ => d
  end.

Definition weight (self : workout) : Q :=
  match self with
  | Training _ _ w | Running _ _ w | SportsWalking _ _ w _
  | Swimming _ _ w _ _ => w
  end.

Definition height (self : workout) : result Q :=
  match self with
  | SportsWalking _ _ _ h => Ok h
  | _ => Raise (AttributeError "height")
  end.

Definition length_pool (self : workout) : result Q :=
  match self with
  | Swimming _ _ _ l _ => Ok l
  | _ => Raise (AttributeError "length_pool")
  end.

Definition count_pool (self : workout) : result Q :=
  match self with
  | Swimming _ _ _ _ c => Ok c
  | _ => Raise (AttributeError "count_pool")
  end.

(** ** Class constants *)

Definition COEF_CCAL_1 : Q := 18.
Definition COEF_CCAL_2 : Q := 20.
Definition MIN_IN_HOUR : Q := 60.
Definition M_IN_KM : Q := 1000.

(** [self.LEN_STEP]: [Swimming] shadows the value of [Training]. *)
Definition LEN_STEP (self : workout) : Q :=
  match self with
  | Swimming _ _ _ _ _ => 1.38
  | _ => 0.65
  end.

(** [Running] *)
Definition COEF_CALORIE_1 : Q := 18.
Definition COEF_CALORIE_2 : Q := 20.

(** [SportsWalking] *)
Definition COEFF_CALORIE_1 : Q := 0.035.
Definition COEFF_CALORIE_2 : Q := 0.029.
Definition COEFF_SQUARE : Z := 2.

(** [Swimming] *)
Definition COEF_SWM : Q := 2.
Definition COEF_CALORIE : Q := 1.1.

(** ** Method computations *)

Definition M (A : Type) : Type := workout -> result A * workout.

Definition ret {A : Type} (a : A) : M A := fun self => (Ok a, self).

Definition raise {A : Type} (e : exn) : M A := fun self => (Raise e, self).

Definition bind {A B : Type} (m : M A) (k : A -> M B) : M B :=
  fun self =>
    match m self with
    | (Ok a, self') => k a self'
    | (Raise e, self') => (Raise e, self')
    end.

(** Reading an attribute of [self]. *)
Definition attr {A : Type} (f : workout -> A) : M A :=
  fun self => (Ok (f self), self).

Definition attr_opt {A : Type} (f : workout -> result A) : M A :=
  fun self => (f self, self).

Definition lift {A : Type} (r : result A) : M A := fun self => (r, self).

Notation "'let*' x := m 'in' k" := (bind m (fun x => k))
  (at level 10, x name, m at level 100, k at level 200).

(** The value a call returns, and the object it leaves. *)
Definition outcome {A : Type} (m : M A) (self : workout) : result A :=
  fst (m self).

Definition final {A : Type} (m : M A) (self : workout) : workout :=
  snd (m self).

(** ** [Training] *)

Definition get_distance : M Q :=
  let* action := attr action in
  let* len_step := attr LEN_STEP in
  let distance_meters := (action * len_step)%Q in
  let* distance := lift (Py.truediv distance_meters M_IN_KM) in
  ret distance.

Definition Training_get_mean_speed : M Q :=
  let* distance := get_distance in
  let* duration := attr duration in
  let* avg_speed := lift (Py.truediv distance duration) in
  ret avg_speed.

Definition Training_get_spent_calories : M Q :=
  let* name := attr class_name in
  raise (NotImplementedError
           ("В классе " ++ name ++ " " ++
            "не определён метод <get_spent_calories>!")).

(** ** [Swimming.get_mean_speed] and method resolution for
       [get_mean_speed] *)

Definition Swimming_get_mean_speed : M Q :=
  let* length_pool := attr_opt length_pool in
  let* count_pool := attr_opt count_pool in
  let distance_meters := (length_pool * count_pool)%Q in
  let* distance_km := lift (Py.truediv distance_meters M_IN_KM) in
  let* duration := attr duration in
  let* avg_speed := lift (Py.truediv distance_km duration) in
  ret avg_speed.

Definition get_mean_speed : M Q :=
  fun self =>
    match self with
    | Swimming _ _ _ _ _ => Swimming_get_mean_speed self
    | _ => Training_get_mean_speed self
    end.

(** ** [Running] *)

Definition Running_get_spent_calories : M Q :=
  let* duration := attr duration in
  let duration_min := (duration * MIN_IN_HOUR)%Q in
  let* mean_speed := get_mean_speed in
  let calc_speed_coef := (COEF_CALORIE_1 * mean_speed)%Q in
  let* weight := attr weight in
  let calc_avg_speed := ((calc_speed_coef - COEF_CALORIE_2) * weight)%Q in
  let* q := lift (Py.truediv calc_avg_speed M_IN_KM) in
  let spent_calories := (q * duration_min)%Q in
  ret spent_calories.

(** ** [SportsWalking] *)

Definition SportsWalking_get_spent_calories : M Q :=
  let* duration := attr duration in
  let duration_min := (duration * MIN_IN_HOUR)%Q in
  let* mean_speed := get_mean_speed in
  let* height := attr_opt height in
  let* calc_formula :=
    lift (Py.floordiv (Py.pow mean_speed COEFF_SQUARE) height) in
  let* weight := attr weight in
  let calc_weight_coef1 := (COEFF_CALORIE_1 * weight)%Q in
  let calc_weight_coef2 := (COEFF_CALORIE_2 * weight)%Q in
  let spent_calories :=
    ((calc_weight_coef1 + calc_formula * calc_weight_coef2)
     * duration_min)%Q in
  ret spent_calories.

(** ** [Swimming] *)

Definition Swimming_get_spent_calories : M Q :=
  let* mean_speed := get_mean_speed in
  let coef_speed := (mean_speed + COEF_CALORIE)%Q in
  let coef_swim := (coef_speed * COEF_SWM)%Q in
  let* weight := attr weight in
  let spent_calories := (coef_swim * weight)%Q in
  ret spent_calories.

(** ** Method resolution for [get_spent_calories], and
       [show_training_info] *)

Definition get_spent_calories : M Q :=
  fun self =>
    match self with
    | Training _ _ _ => Training_get_spent_calories self
    | Running _ _ _ => Running_get_spent_calories self
    | SportsWalking _ _ _ _ => SportsWalking_get_spent_calories self
    | Swimming _ _ _ _ _ => Swimming_get_spent_calories self
    end.

Definition show_training_info : M InfoMessage.t :=
  let* name := attr class_name in
  let* duration := attr duration in
  let* distance := get_distance in
  let* speed := get_mean_speed in
  let* calories := get_spent_calories in
  let training_info :=
    InfoMessage.init name duration distance speed calories in
  ret training_info.

(** ** [read_package] and [main] *)

(** Calling a class with [*data]: the number of arguments has to be the one
    [__init__] takes. *)
Definition new_Swimming (data : list Q) : result workout :=
  match data with
  | [a; d; w; l; c] => Ok (Swimming a d w l c)
  | _ => Raise TypeError
  end.

Definition new_Running (data : list Q) : result workout :=
  match data with
  | [a; d; w] => Ok (Running a d w)
  | _ => Raise TypeError
  end.

Definition new_SportsWalking (data : list Q) : result workout :=
  match data with
  | [a; d; w; h] => Ok (SportsWalking a d w h)
  | _ => Raise TypeError
  end.

Definition traning_types : gmap string (list Q -> result workout) :=
  <["WLK" := new_SportsWalking]>
    (<["RUN" := new_Running]> (<["SWM" := new_Swimming]> ∅)).

Definition read_package (workout_type : string) (data : list Q)
  : result workout :=
  if bool_decide (workout_type ∉ dom traning_types)
  then Raise (ValueError (workout_type ++ " - неизвестный тип тренировки."))
  else match traning_types !! workout_type with
       | Some cls => cls data
       | None => Raise (KeyError workout_type)
       end.

(** [main]: the line it prints. *)
Definition main : M string :=
  let* info := show_training_info in
  let* message := lift (InfoMessage.get_message info) in
  ret message.

Definition packages : list (string * list Q) :=
  [ ("SWM", [720; 1; 80; 25; 40]%Q);
    ("RUN", [15000; 1; 75]%Q);
    ("WLK", [9000; 1; 75; 180]%Q) ].

(** The script: the lines printed, or the first exception. *)
Fixpoint run (pkgs : list (string * list Q)) : result (list string) :=
  match pkgs with
  | [] => Ok []
  | (workout_type, data) :: pkgs' =>
      result_bind (read_package workout_type data) (fun training =>
      result_bind (outcome main training) (fun line =>
      result_map (cons line) (run pkgs')))
  end.

(** ** Reading a numeral back *)




(** * The module over binary64 numbers

    The model above computes in exact arithmetic.  Python computes with
    [int] (unbounded) and [float] (IEEE 754 binary64): products and
    quotients are rounded, [**] and the conversion of a large [int] to
    [float] raise [OverflowError], and a [float] may be an infinity or a
    NaN.  Where a result depends on that (the floor division of
    SportsWalking, the rendering of numbers, the exceptions of the
    script), the properties are stated on this second model, in which a number
    is an [int] or a primitive binary64 float, and every operation is
    Python's.  One operation is not fixed by Python: [float ** 2] calls
    the C library's [pow], whose last bit depends on the library, so the
    model takes that function as a parameter ([Libm]); the concrete
    figures are given for the correctly rounded one. *)

Module B64.

Import PrimFloat SpecFloat FloatOps FloatAxioms.

(** ** Numbers *)

Inductive num : Type :=
| PInt (z : Z)
| PFloat (f : float).

(** The sign bit of a float ([false] for a NaN). *)
Definition sign_bit (f : float) : bool :=
  match Prim2SF f with
  | S754_zero s | S754_infinity s | S754_finite s _ _ => s
  | S754_nan => false
  end.

(** [float(z)] of an [int]: the nearest float, ties to even. *)
Definition int_to_float (z : Z) : result float :=
  let f := SF2Prim (binary_normalize prec emax z 0 false) in
  if is_infinity f then Raise OverflowError else Ok f.

(** The conversion of an operand of a float operation. *)
Definition to_float (x : num) : result float :=
  match x with
  | PInt z => int_to_float z
  | PFloat f => Ok f
  end.

Definition float_op (op : float -> float -> float) (a b : num)
  : result num :=
  result_bind (to_float a) (fun x =>
  result_bind (to_float b) (fun y =>
  Ok (PFloat (op x y)))).

(** [a * b], [a + b], [a - b] *)
Definition mul (a b : num) : result num :=
  match a, b with
  | PInt x, PInt y => Ok (PInt (x * y))
  | _, _ => float_op PrimFloat.mul a b
  end.

Definition add (a b : num) : result num :=
  match a, b with
  | PInt x, PInt y => Ok (PInt (x + y))
  | _, _ => float_op PrimFloat.add a b
  end.

Definition sub (a b : num) : result num :=
  match a, b with
  | PInt x, PInt y => Ok (PInt (x - y))
  | _, _ => float_op PrimFloat.sub a b
  end.

(** [x / y] of two [int]s: the exact quotient, rounded once. *)
Definition int_true_divide (x y : Z) : result float :=
  let sf z := match z with
              | Z0 => S754_zero false
              | Zpos p => S754_finite false p 0
              | Zneg p => S754_finite true p 0
              end in
  let f := SF2Prim (SFdiv prec emax (sf x) (sf y)) in
  if is_infinity f then Raise OverflowError else Ok f.

(** [a / b] *)
Definition truediv (a b : num) : result num :=
  match a, b with
  | PInt x, PInt y =>
      if (y =? 0)%Z then Raise ZeroDivisionError
      else result_map PFloat (int_true_divide x y)
  | _, _ =>
      result_bind (to_float a) (fun x =>
      result_bind (to_float b) (fun y =>
      if (y =? 0)%float then Raise ZeroDivisionError
      else Ok (PFloat (x / y)%float)))
  end.

(** [b == 0], the test that makes [/] and [//] raise. *)
Definition num_is_zero (b : num) : bool :=
  match b with
  | PInt y => (y =? 0)%Z
  | PFloat y => (y =? 0)%float
  end.

(** C's [fmod (x, y)]: the remainder of the truncated quotient, exact. *)
Definition fmod (x y : float) : float :=
  if is_nan x || is_nan y || is_infinity x || is_zero y then nan
  else if is_infinity y then x
  else if (abs x <? abs y)%float then x
  else match Prim2SF x, Prim2SF y with
       | S754_finite sx mx ex, S754_finite sy my ey =>
           let e := Z.min ex ey in
           let X := Z.shiftl (Zpos mx) (ex - e) in
           let Y := Z.shiftl (Zpos my) (ey - e) in
           SF2Prim (binary_normalize prec emax (cond_Zopp sx (X mod Y)) e sx)
       | _, _ => x
       end.

(** C's [floor]. *)
Definition floor (x : float) : float :=
  match Prim2SF x with
  | S754_finite s m e =>
      if (0 <=? e)%Z then x
      else SF2Prim (binary_normalize prec emax
                      (Z.shiftr (cond_Zopp s (Zpos m)) (- e)) 0 s)
  | _ => x
  end.

(** [copysign (0.0, v)] *)
Definition copysign_zero (v : float) : float :=
  if sign_bit v then neg_zero else zero.

(** [vx // wx] of floats, [wx] not zero: CPython's [_float_div_mod]. *)
Definition float_floor_div (vx wx : float) : float :=
  let mod_ := fmod vx wx in
  let div := ((vx - mod_) / wx)%float in
  let div :=
    if negb (mod_ =? 0)%float && xorb (wx <? 0)%float (mod_ <? 0)%float
    then (div - 1)%float else div in
  if negb (div =? 0)%float then
    let floordiv := floor div in
    if (0.5 <? div - floordiv)%float then (floordiv + 1)%float else floordiv
  else copysign_zero (vx / wx)%float.

(** [a // b] *)
Definition floordiv (a b : num) : result num :=
  match a, b with
  | PInt x, PInt y =>
      if (y =? 0)%Z then Raise ZeroDivisionError else Ok (PInt (x / y))
  | _, _ =>
      result_bind (to_float a) (fun x =>
      result_bind (to_float b) (fun y =>
      if (y =? 0)%float then Raise ZeroDivisionError
      else Ok (PFloat (float_floor_div x y))))
  end.

(** The C library, of which the module uses one function: [pow2 x] is
    [pow (x, 2.0)] for a finite [x] above zero.  The C standard does not
    say how [pow] rounds, and libraries differ in the last bit, so the
    function is a parameter of the model.  A range error is taken to show
    as an infinite result. *)
Class Libm : Type := pow2 : float -> float.

(** The library whose [pow (x, 2.0)] is the correctly rounded square. *)
Definition correctly_rounded : Libm := fun x => (x * x)%float.

(** [x ** 2.0] of a float: CPython's [float_pow], which settles NaN,
    infinities, zero, the sign and 1.0 itself and leaves the rest to the
    library. *)
Definition float_square {L : Libm} (x : float) : result float :=
  if is_nan x then Ok x
  else if is_infinity x then Ok infinity
  else if (x =? 0)%float then Ok 0%float
  else let iv := if (x <? 0)%float then (- x)%float else x in
       if (iv =? 1)%float then Ok 1%float
       else let ix := pow2 iv in
            if is_infinity ix then Raise OverflowError else Ok ix.

(** [a ** n], for the exponent 2 of the module. *)
Definition pow {L : Libm} (a : num) (n : Z) : result num :=
  if (n =? 2)%Z then
    match a with
    | PInt x => Ok (PInt (x * x))
    | PFloat x => result_map PFloat (float_square x)
    end
  else Raise (Unmodelled "exponent other than 2").

(** ** Rendering a number *)

(** The absolute value of a finite float, exactly. *)
Definition float_abs_Q (f : float) : Q :=
  match Prim2SF f with
  | S754_finite _ m e =>
      if (0 <=? e)%Z then inject_Z (Zpos m * 2 ^ e)
      else Zpos m # (2 ^ Z.to_pos (- e))
  | _ => 0
  end.



(** [format(f, '.{prec}f')] of a float. *)
Definition float_format (prec : nat) (f : float) : string :=
  match Prim2SF f with
  | S754_nan => "nan"
  | S754_infinity s => (if s then "-" else "") ++ "inf"
  | _ => (if sign_bit f then "-" else "")
         ++ Format.format_fixed prec (float_abs_Q f)
  end.

(** [format(x, '.{prec}f')]: an [int] is converted to [float] first. *)
Definition num_format (prec : nat) (x : num) : result string :=
  result_map (float_format prec) (to_float x).

Inductive value : Type :=
| VStr (s : string)
| VNum (x : num).

(** [format(v, spec)] *)
Definition format_value (v : value) (spec : string) : result string :=
  match v with
  | VStr s =>
      if (spec =? "")%string then Ok s
      else match Format.parse_fixed_spec spec with
           | Some _ =>
               Raise (ValueError
                 "Unknown format code 'f' for object of type 'str'")
           | None => Raise (Unmodelled "format spec")
           end
  | VNum x =>
      match Format.parse_fixed_spec spec with
      | Some prec => num_format prec x
      | None => Raise (Unmodelled "format spec")
      end
  end.

Definition kwargs : Type := list (string * value).

Fixpoint lookup_kw (kw : kwargs) (name : string) : option value :=
  match kw with
  | [] => None
  | (k, v) :: kw' => if (k =? name)%string then Some v
                     else lookup_kw kw' name
  end.

Definition format_field (kw : kwargs) (name spec : string)
  : result string :=
  if Format.all_digits name then Raise IndexError
  else match lookup_kw kw name with
       | Some v => format_value v spec
       | None => Raise (KeyError name)
       end.

(** The scan of the template, as in the exact model. *)
Fixpoint format_from (kw : kwargs) (md : Format.mode) (s : string)
  : result string :=
  match s with
  | "" =>
      match md with
      | Format.InText => Ok ""
      | Format.AfterClose =>
          Raise (ValueError "Single '}' encountered in format string")
      | Format.InName "" =>
          Raise (ValueError "Single '{' encountered in format string")
      | Format.InName _ | Format.InSpec _ _ =>
          Raise (ValueError "expected '}' before end of string")
      end
  | String c rest =>
      match md with
      | Format.InText =>
          if (c =? "{")%char then format_from kw (Format.InName "") rest
          else if (c =? "}")%char then format_from kw Format.AfterClose rest
          else result_map (String c) (format_from kw Format.InText rest)
      | Format.AfterClose =>
          if (c =? "}")%char
          then result_map (String c) (format_from kw Format.InText rest)
          else Raise (ValueError "Single '}' encountered in format string")
      | Format.InName name =>
          if (c =? "{")%char then
            if (name =? "")%string
            then result_map (String c) (format_from kw Format.InText rest)
            else Raise (ValueError "unexpected '{' in field name")
          else if (c =? "}")%char then
            result_bind (format_field kw name "") (fun piece =>
            result_map (append piece) (format_from kw Format.InText rest))
          else if (c =? ":")%char
          then format_from kw (Format.InSpec name "") rest
          else if (c =? "!")%char || (c =? ".")%char || (c =? "[")%char
          then Raise (Unmodelled "conversion or compound field name")
          else format_from kw (Format.InName (Format.snoc name c)) rest
      | Format.InSpec name spec =>
          if (c =? "}")%char then
            result_bind (format_field kw name spec) (fun piece =>
            result_map (append piece) (format_from kw Format.InText rest))
          else if (c =? "{")%char
          then Raise (Unmodelled "nested replacement field")
          else format_from kw (Format.InSpec name (Format.snoc spec c)) rest
      end
  end.

(** ** [InfoMessage] *)

Record InfoMessage : Type := mkInfoMessage {
  training_type : string;
  im_duration : num;
  im_distance : num;
  im_speed : num;
  im_calories : num;
  string_ru : string
}.

Definition InfoMessage_init (training_type : string)
    (duration distance speed calories : num) : InfoMessage :=
  mkInfoMessage training_type duration distance speed calories
                InfoMessage.string_ru_default.

Definition asdict (self : InfoMessage) : kwargs :=
  [ ("training_type", VStr (training_type self));
    ("duration", VNum (im_duration self));
    ("distance", VNum (im_distance self));
    ("speed", VNum (im_speed self));
    ("calories", VNum (im_calories self));
    ("string_ru", VStr (string_ru self)) ].

Definition get_message (self : InfoMessage) : result string :=
  let message := format_from (asdict self) Format.InText (string_ru self) in
  message.

(** ** Workout objects and class constants *)

Inductive workout : Type :=
| Training (action duration weight : num)
| Running (action duration weight : num)
| SportsWalking (action duration weight height : num)
| Swimming (action duration weight length_pool count_pool : num).

Definition class_name (self : workout) : string :=
  match self with
  | Training _ _ _ => "Training"
  | Running _ _ _ => "Running"
  | SportsWalking _ _ _ _ => "SportsWalking"
  | Swimming _ _ _ _ _ => "Swimming"
  end.

Definition action (self : workout) : num :=
  match self with
  | Training a _ _ | Running a _ _ | SportsWalking a _ _ _
  | Swimming a _ _ _ _ => a
  end.

Definition duration (self : workout) : num :=
  match self with
  | Training _ d _ | Running _ d _ | SportsWalking _ d _ _
  | Swimming _ d _ _ _ => d
  end.

Definition weight (self : workout) : num :=
  match self with
  | Training _ _ w | Running _ _ w | SportsWalking _ _ w _
  | Swimming _ _ w _ _ => w
  end.

Definition height (self : workout) : result num :=
  match self with
  | SportsWalking _ _ _ h => Ok h
  | _ => Raise (AttributeError "height")
  end.

Definition length_pool (self : workout) : result num :=
  match self with
  | Swimming _ _ _ l _ => Ok l
  | _ => Raise (AttributeError "length_pool")
  end.

Definition count_pool (self : workout) : result num :=
  match self with
  | Swimming _ _ _ _ c => Ok c
  | _ => Raise (AttributeError "count_pool")
  end.

Definition MIN_IN_HOUR : num := PInt 60.
Definition M_IN_KM : num := PInt 1000.

Definition LEN_STEP (self : workout) : num :=
  match self with
  | Swimming _ _ _ _ _ => PFloat 1.38
  | _ => PFloat 0.65
  end.

Definition COEF_CALORIE_1 : num := PInt 18.
Definition COEF_CALORIE_2 : num := PInt 20.
Definition COEFF_CALORIE_1 : num := PFloat 0.035.
Definition COEFF_CALORIE_2 : num := PFloat 0.029.
Definition COEFF_SQUARE : Z := 2.
Definition COEF_SWM : num := PInt 2.
Definition COEF_CALORIE : num := PFloat 1.1.

(** ** Method computations *)

Definition M (A : Type) : Type := workout -> result A * workout.

Definition ret {A : Type} (a : A) : M A := fun self => (Ok a, self).

Definition raise {A : Type} (e : exn) : M A := fun self => (Raise e, self).

Definition bind {A B : Type} (m : M A) (k : A -> M B) : M B :=
  fun self =>
    match m self with
    | (Ok a, self') => k a self'
    | (Raise e, self') => (Raise e, self')
    end.

Definition attr {A : Type} (f : workout -> A) : M A :=
  fun self => (Ok (f self), self).

Definition attr_opt {A : Type} (f : workout -> result A) : M A :=
  fun self => (f self, self).

Definition lift {A : Type} (r : result A) : M A := fun self => (r, self).

Notation "'let+' x := m 'in' k" := (bind m (fun x => k))
  (at level 10, x name, m at level 100, k at level 200).

Definition outcome {A : Type} (m : M A) (self : workout) : result A :=
  fst (m self).

Definition final {A : Type} (m : M A) (self : workout) : workout :=
  snd (m self).

(** ** The methods *)

Definition get_distance : M num :=
  let+ action := attr action in
  let+ len_step := attr LEN_STEP in
  let+ distance_meters := lift (mul action len_step) in
  let+ distance := lift (truediv distance_meters M_IN_KM) in
  ret distance.

Definition Training_get_mean_speed : M num :=
  let+ distance := get_distance in
  let+ duration := attr duration in
  let+ avg_speed := lift (truediv distance duration) in
  ret avg_speed.

Definition Training_get_spent_calories : M num :=
  let+ name := attr class_name in
  raise (NotImplementedError
           ("В классе " ++ name ++ " " ++
            "не определён метод <get_spent_calories>!")).

Definition Swimming_get_mean_speed : M num :=
  let+ length_pool := attr_opt length_pool in
  let+ count_pool := attr_opt count_pool in
  let+ distance_meters := lift (mul length_pool count_pool) in
  let+ distance_km := lift (truediv distance_meters M_IN_KM) in
  let+ duration := attr duration in
  let+ avg_speed := lift (truediv distance_km duration) in
  ret avg_speed.

Definition get_mean_speed : M num :=
  fun self =>
    match self with
    | Swimming _ _ _ _ _ => Swimming_get_mean_speed self
    | _ => Training_get_mean_speed self
    end.

Definition Running_get_spent_calories : M num :=
  let+ duration := attr duration in
  let+ duration_min := lift (mul duration MIN_IN_HOUR) in
  let+ mean_speed := get_mean_speed in
  let+ calc_speed_coef := lift (mul COEF_CALORIE_1 mean_speed) in
  let+ difference := lift (sub calc_speed_coef COEF_CALORIE_2) in
  let+ weight := attr weight in
  let+ calc_avg_speed := lift (mul difference weight) in
  let+ quotient := lift (truediv calc_avg_speed M_IN_KM) in
  let+ spent_calories := lift (mul quotient duration_min) in
  ret spent_calories.

Definition SportsWalking_get_spent_calories {L : Libm} : M num :=
  let+ duration := attr duration in
  let+ duration_min := lift (mul duration MIN_IN_HOUR) in
  let+ mean_speed := get_mean_speed in
  let+ square := lift (pow mean_speed COEFF_SQUARE) in
  let+ height := attr_opt height in
  let+ calc_formula := lift (floordiv square height) in
  let+ weight1 := attr weight in
  let+ calc_weight_coef1 := lift (mul COEFF_CALORIE_1 weight1) in
  let+ weight2 := attr weight in
  let+ calc_weight_coef2 := lift (mul COEFF_CALORIE_2 weight2) in
  let+ product := lift (mul calc_formula calc_weight_coef2) in
  let+ total := lift (add calc_weight_coef1 product) in
  let+ spent_calories := lift (mul total duration_min) in
  ret spent_calories.

Definition Swimming_get_spent_calories : M num :=
  let+ mean_speed := get_mean_speed in
  let+ coef_speed := lift (add mean_speed COEF_CALORIE) in
  let+ coef_swim := lift (mul coef_speed COEF_SWM) in
  let+ weight := attr weight in
  let+ spent_calories := lift (mul coef_swim weight) in
  ret spent_calories.

Definition get_spent_calories {L : Libm} : M num :=
  fun self =>
    match self with
    | Training _ _ _ => Training_get_spent_calories self
    | Running _ _ _ => Running_get_spent_calories self
    | SportsWalking _ _ _ _ => SportsWalking_get_spent_calories self
    | Swimming _ _ _ _ _ => Swimming_get_spent_calories self
    end.

Definition show_training_info {L : Libm} : M InfoMessage :=
  let+ name := attr class_name in
  let+ duration := attr duration in
  let+ distance := get_distance in
  let+ speed := get_mean_speed in
  let+ calories := get_spent_calories in
  let training_info :=
    InfoMessage_init name duration distance speed calories in
  ret training_info.

(** ** [read_package], [main] and the script *)

Definition new_Swimming (data : list num) : result workout :=
  match data with
  | [a; d; w; l; c] => Ok (Swimming a d w l c)
  | _ => Raise TypeError
  end.

Definition new_Running (data : list num) : result workout :=
  match data with
  | [a; d; w] => Ok (Running a d w)
  | _ => Raise TypeError
  end.

Definition new_SportsWalking (data : list num) : result workout :=
  match data with
  | [a; d; w; h] => Ok (SportsWalking a d w h)
  | _ => Raise TypeError
  end.

Definition traning_types : gmap string (list num -> result workout) :=
  <["WLK" := new_SportsWalking]>
    (<["RUN" := new_Running]> (<["SWM" := new_Swimming]> ∅)).

Definition read_package (workout_type : string) (data : list num)
  : result workout :=
  if bool_decide (workout_type ∉ dom traning_types)
  then Raise (ValueError (workout_type ++ " - неизвестный тип тренировки."))
  else match traning_types !! workout_type with
       | Some cls => cls data
       | None => Raise (KeyError workout_type)
       end.

Definition main {L : Libm} : M string :=
  let+ info := show_training_info in
  let+ message := lift (get_message info) in
  ret message.

Definition packages : list (string * list num) :=
  [ ("SWM", [PInt 720; PInt 1; PInt 80; PInt 25; PInt 40]);
    ("RUN", [PInt 15000; PInt 1; PInt 75]);
    ("WLK", [PInt 9000; PInt 1; PInt 75; PInt 180]) ].

Fixpoint run {L : Libm} (pkgs : list (string * list num))
  : result (list string) :=
  match pkgs with
  | [] => Ok []
  | (workout_type, data) :: pkgs' =>
      result_bind (read_package workout_type data) (fun training =>
      result_bind (outcome main training) (fun line =>
      result_map (cons line) (run pkgs')))
  end.

(** ** What a method may do

    [numeric e]: [e] is an exception of arithmetic.  [safe I P Q m]: on an
    object that satisfies [I], the computation [m] leaves the object as it
    found it, raises only exceptions in [P] and returns only values in
    [Q]. *)

Definition numeric (e : exn) : Prop :=
  e = ZeroDivisionError \/ e = OverflowError.

Definition within {A : Type} (P : exn -> Prop) (Q : A -> Prop)
    (r : result A) : Prop :=
  match r with
  | Ok a => Q a
  | Raise e => P e
  end.

Definition safe {A : Type} (I : workout -> Prop) (P : exn -> Prop)
    (Q : A -> Prop) (m : M A) : Prop :=
  forall self, I self -> final m self = self /\ within P Q (outcome m self).

Definition any {A : Type} (a : A) : Prop := True.

Definition subclass (self : workout) : Prop :=
  match self with
  | Training _ _ _ => False
  | _ => True
  end.

End B64.

(** * Properties *)

(** A call returns a number equal to [v]. *)
Definition returns (m : M Q) (self : workout) (v : Q) : Prop :=
  match outcome m self with
  | Ok v' => (v' == v)%Q
  | Raise _ => False
  end.

(** A computation that leaves the object as it found it. *)
Definition preserves {A : Type} (m : M A) : Prop :=
  forall self, final m self = self.

(** A template without [{] and [}]. *)
Fixpoint no_braces (s : string) : bool :=
  match s with
  | "" => true
  | String c rest =>
      negb (c =? "{")%char && negb (c =? "}")%char && no_braces rest
  end.

(** The mean speed of a Swimming workout as a function of duration and pool
    alone. *)
Definition swim_speed (d l c : Q) : result Q :=
  result_bind (Py.truediv (l * c) M_IN_KM) (fun distance_km =>
  Py.truediv distance_km d).

Section Arithmetic.

Local Open Scope Q_scope.




Lemma truediv_M_IN_KM (a : Q) : Py.truediv a M_IN_KM = Ok (a / M_IN_KM).
Proof. reflexivity. Qed.

End Arithmetic.

(** ** What each method computes *)

Section Runs.

Local Open Scope Q_scope.

Lemma get_distance_run (self : workout) :
  get_distance self
  = (Ok (action self * LEN_STEP self / M_IN_KM), self).
Proof. reflexivity. Qed.








Lemma Swimming_get_mean_speed_outcome (a d w l c : Q) :
  outcome get_mean_speed (Swimming a d w l c) = swim_speed d l c.
Proof.
  unfold outcome, get_mean_speed, Swimming_get_mean_speed, bind, swim_speed.
  unfold attr_opt, attr, lift, ret, length_pool, count_pool, duration.
  rewrite truediv_M_IN_KM. cbn [result_bind].
  destruct (Py.truediv (l * c / M_IN_KM) d); reflexivity.
Qed.

Lemma Swimming_get_spent_calories_outcome (a d w l c : Q) :
  outcome get_spent_calories (Swimming a d w l c)
  = result_map (fun mean_speed =>
                  (mean_speed + COEF_CALORIE) * COEF_SWM * w)
               (swim_speed d l c).
Proof.
  unfold outcome, get_spent_calories, Swimming_get_spent_calories, bind.
  unfold get_mean_speed, Swimming_get_mean_speed, bind, swim_speed.
  unfold attr_opt, attr, lift, ret, length_pool, count_pool, duration.
  rewrite truediv_M_IN_KM. cbn [result_bind result_map].
  destruct (Py.truediv (l * c / M_IN_KM) d); reflexivity.
Qed.

End Runs.

(** ** Calorie, speed and distance formulas *)

Section Formulas.

Local Open Scope Q_scope.


Ltac constants :=
  unfold COEF_CALORIE_1, COEF_CALORIE_2, COEFF_CALORIE_1, COEFF_CALORIE_2,
    COEF_SWM, COEF_CALORIE, M_IN_KM, MIN_IN_HOUR.






End Formulas.

(** ** Distance, and what swimming results depend on *)

Section Distance.

Local Open Scope Q_scope.



(** C9.  Two Swimming workouts that agree on duration, weight, pool length
    and lap count get the same mean speed and the same calories, whatever
    their actions; the distance is the one result that follows the
    action. *)
Theorem Swimming_action_noninterference (a a' d w l c : Q) :
  outcome get_mean_speed (Swimming a d w l c)
  = outcome get_mean_speed (Swimming a' d w l c)
  /\ outcome get_spent_calories (Swimming a d w l c)
     = outcome get_spent_calories (Swimming a' d w l c)
  /\ returns get_distance (Swimming a d w l c) (a * 1.38 / 1000).
Proof.
  split; [now rewrite !Swimming_get_mean_speed_outcome|].
  split; [now rewrite !Swimming_get_spent_calories_outcome|].
  reflexivity.
Qed.

End Distance.

(** ** The base class has no calorie formula *)

(** C7.  [get_spent_calories] of the base class raises
    [NotImplementedError] for every instance, and so [show_training_info] of
    a base instance never returns a message. *)
Theorem Training_get_spent_calories_raises (a d w : Q) :
  get_spent_calories (Training a d w)
  = (Raise (NotImplementedError
       "В классе Training не определён метод <get_spent_calories>!"),
     Training a d w)
  /\ (forall v, outcome get_spent_calories (Training a d w) <> Ok v)
  /\ (forall info, outcome show_training_info (Training a d w) <> Ok info).
Proof.
  split; [reflexivity|]. split; [discriminate|].
  intros info. cbv beta iota delta [outcome show_training_info bind attr].
  rewrite get_distance_run.
  destruct (get_mean_speed (Training a d w)) as [[v|e] self'] eqn:E;
    [|discriminate].
  assert (Hs : self' = Training a d w).
  { unfold get_mean_speed, Training_get_mean_speed, bind in E.
    rewrite get_distance_run in E. unfold attr, lift, ret in E.
    destruct (Py.truediv _ _) in E; now inversion E. }
  subst self'. discriminate.
Qed.

(** ** No method changes the object *)

Section Preservation.

Lemma preserves_ret {A : Type} (a : A) : preserves (ret a).
Proof. intros self. reflexivity. Qed.

Lemma preserves_raise {A : Type} (e : exn) : preserves (@raise A e).
Proof. intros self. reflexivity. Qed.

Lemma preserves_attr {A : Type} (f : workout -> A) : preserves (attr f).
Proof. intros self. reflexivity. Qed.

Lemma preserves_attr_opt {A : Type} (f : workout -> result A) :
  preserves (attr_opt f).
Proof. intros self. reflexivity. Qed.

Lemma preserves_lift {A : Type} (r : result A) : preserves (lift r).
Proof. intros self. reflexivity. Qed.

Lemma preserves_bind {A B : Type} (m : M A) (k : A -> M B) :
  preserves m -> (forall a, preserves (k a)) -> preserves (bind m k).
Proof.
  intros Hm Hk self. unfold final, bind.
  specialize (Hm self). unfold final in Hm.
  destruct (m self) as [[a|e] self']; cbn [snd] in *; subst self'.
  - apply Hk.
  - reflexivity.
Qed.

End Preservation.

Create HintDb preserves.
#[local] Hint Resolve preserves_ret preserves_raise preserves_attr
  preserves_attr_opt preserves_lift : preserves.
#[local] Hint Extern 2 (preserves (bind _ _)) =>
  apply preserves_bind; [|intros ?] : preserves.

Lemma preserves_get_distance : preserves get_distance.
Proof. unfold get_distance. auto 10 with preserves. Qed.

#[local] Hint Resolve preserves_get_distance : preserves.

Lemma preserves_get_mean_speed : preserves get_mean_speed.
Proof.
  intros self. unfold final, get_mean_speed.
  destruct self;
    [ apply (ltac:(unfold Training_get_mean_speed; auto 10 with preserves)
              : preserves Training_get_mean_speed) ..
    | apply (ltac:(unfold Swimming_get_mean_speed; auto 10 with preserves)
              : preserves Swimming_get_mean_speed) ].
Qed.

#[local] Hint Resolve preserves_get_mean_speed : preserves.

Lemma preserves_get_spent_calories : preserves get_spent_calories.
Proof.
  intros self. unfold final, get_spent_calories. destruct self.
  - apply (ltac:(unfold Training_get_spent_calories; auto 10 with preserves)
            : preserves Training_get_spent_calories).
  - apply (ltac:(unfold Running_get_spent_calories; auto 10 with preserves)
            : preserves Running_get_spent_calories).
  - apply (ltac:(unfold SportsWalking_get_spent_calories;
                 auto 10 with preserves)
            : preserves SportsWalking_get_spent_calories).
  - apply (ltac:(unfold Swimming_get_spent_calories; auto 10 with preserves)
            : preserves Swimming_get_spent_calories).
Qed.

#[local] Hint Resolve preserves_get_spent_calories : preserves.

Lemma preserves_show_training_info : preserves show_training_info.
Proof. unfold show_training_info. auto 10 with preserves. Qed.

(** C8.  For every workout instance of any class, [get_distance],
    [get_mean_speed], [get_spent_calories] and [show_training_info] leave
    the instance as they found it, and a second call of
    [show_training_info], made on the instance as the first call left it,
    has the outcome of the first: the same message, field by field, or the
    same exception. *)
Theorem show_training_info_idempotent (self : workout) :
  final get_distance self = self
  /\ final get_mean_speed self = self
  /\ final get_spent_calories self = self
  /\ final show_training_info self = self
  /\ outcome show_training_info (final show_training_info self)
     = outcome show_training_info self.
Proof.
  split; [apply preserves_get_distance|].
  split; [apply preserves_get_mean_speed|].
  split; [apply preserves_get_spent_calories|].
  split; [apply preserves_show_training_info|].
  now rewrite preserves_show_training_info.
Qed.

(** ** The factory *)

Section Factory.

Lemma traning_types_unknown (code : string) :
  code <> "SWM" -> code <> "RUN" -> code <> "WLK" ->
  traning_types !! code = None.
Proof.
  intros H1 H2 H3. unfold traning_types.
  rewrite !lookup_insert_ne by congruence. apply lookup_empty.
Qed.

Lemma read_package_unknown (code : string) (data : list Q) :
  code <> "SWM" -> code <> "RUN" -> code <> "WLK" ->
  read_package code data
  = Raise (ValueError (code ++ " - неизвестный тип тренировки.")).
Proof.
  intros H1 H2 H3. unfold read_package.
  rewrite bool_decide_true; [reflexivity|].
  apply not_elem_of_dom. now apply traning_types_unknown.
Qed.

Lemma read_package_known (code : string) (data : list Q) :
  code = "SWM" \/ code = "RUN" \/ code = "WLK" ->
  read_package code data
  = match traning_types !! code with
    | Some cls => cls data
    | None => Raise (KeyError code)
    end.
Proof.
  intros H. unfold read_package.
  rewrite bool_decide_false; [reflexivity|].
  intros Hn. apply not_elem_of_dom in Hn.
  destruct H as [-> | [-> | ->]]; discriminate Hn.
Qed.

Lemma new_Swimming_fails (data : list Q) (e : exn) :
  new_Swimming data = Raise e -> e = TypeError.
Proof.
  unfold new_Swimming.
  destruct data as [|a [|d [|w [|l [|c [|x data]]]]]];
    intros H; inversion H; reflexivity.
Qed.

Lemma new_Running_fails (data : list Q) (e : exn) :
  new_Running data = Raise e -> e = TypeError.
Proof.
  unfold new_Running.
  destruct data as [|a [|d [|w [|x data]]]];
    intros H; inversion H; reflexivity.
Qed.

Lemma new_SportsWalking_fails (data : list Q) (e : exn) :
  new_SportsWalking data = Raise e -> e = TypeError.
Proof.
  unfold new_SportsWalking.
  destruct data as [|a [|d [|w [|h [|x data]]]]];
    intros H; inversion H; reflexivity.
Qed.

Lemma read_package_known_fails (code : string) (data : list Q) (e : exn) :
  code = "SWM" \/ code = "RUN" \/ code = "WLK" ->
  read_package code data = Raise e -> e = TypeError.
Proof.
  intros Hk H. rewrite read_package_known in H by exact Hk.
  destruct Hk as [-> | [-> | ->]].
  - exact (new_Swimming_fails data e H).
  - exact (new_Running_fails data e H).
  - exact (new_SportsWalking_fails data e H).
Qed.

Lemma code_cases (code : string) :
  (code = "SWM" \/ code = "RUN" \/ code = "WLK")
  \/ (code <> "SWM" /\ code <> "RUN" /\ code <> "WLK").
Proof.
  destruct (decide (code = "SWM")); [tauto|].
  destruct (decide (code = "RUN")); [tauto|].
  destruct (decide (code = "WLK")); tauto.
Qed.

End Factory.

(** C4.  [read_package] maps "SWM" to Swimming, "RUN" to Running and "WLK"
    to SportsWalking, building the instance from the given parameters.  For
    every other code it raises [ValueError] with a message that starts with
    the code, whatever the parameters are.  [ValueError] is raised for no
    recognised code, and the one other failure is the [TypeError] of a call
    with the wrong number of parameters. *)
Theorem read_package_dispatch :
  (forall a d w l c,
      read_package "SWM" [a; d; w; l; c] = Ok (Swimming a d w l c))
  /\ (forall a d w, read_package "RUN" [a; d; w] = Ok (Running a d w))
  /\ (forall a d w h,
         read_package "WLK" [a; d; w; h] = Ok (SportsWalking a d w h))
  /\ (forall code data,
         code <> "SWM" -> code <> "RUN" -> code <> "WLK" ->
         read_package code data
         = Raise (ValueError (code ++ " - неизвестный тип тренировки.")))
  /\ (forall code data msg,
         read_package code data = Raise (ValueError msg) ->
         code <> "SWM" /\ code <> "RUN" /\ code <> "WLK")
  /\ (forall code data e,
         read_package code data = Raise e ->
         e = TypeError
         \/ e = ValueError (code ++ " - неизвестный тип тренировки.")).
Proof.
  split; [intros; now rewrite read_package_known by tauto|].
  split; [intros; now rewrite read_package_known by tauto|].
  split; [intros; now rewrite read_package_known by tauto|].
  split; [exact read_package_unknown|].
  split.
  - intros code data msg H.
    destruct (code_cases code) as [Hk|Hu]; [|exact Hu].
    discriminate (read_package_known_fails code data _ Hk H).
  - intros code data e H.
    destruct (code_cases code) as [Hk|(H1 & H2 & H3)].
    + left. exact (read_package_known_fails code data e Hk H).
    + rewrite (read_package_unknown code data H1 H2 H3) in H.
      right. now inversion H.
Qed.

Lemma read_package_dispatch_witness :
  "XYZ" <> "SWM" /\ "XYZ" <> "RUN" /\ "XYZ" <> "WLK" /\
  read_package "XYZ" [15000; 1; 75]%Q
  = Raise (ValueError "XYZ - неизвестный тип тренировки.").
Proof.
  assert (H1 : "XYZ" <> "SWM") by discriminate.
  assert (H2 : "XYZ" <> "RUN") by discriminate.
  assert (H3 : "XYZ" <> "WLK") by discriminate.
  split; [exact H1|]. split; [exact H2|]. split; [exact H3|].
  exact (proj1 (proj2 (proj2 (proj2 read_package_dispatch)))
           "XYZ" [15000; 1; 75]%Q H1 H2 H3).
Defined.

(** ** Rendering *)

Section Rendering.

Import Format.

Lemma append_cons (c : ascii) (a b : string) :
  String c a ++ b = String c (a ++ b).
Proof. reflexivity. Qed.

Lemma all_digits_app (a b : string) :
  all_digits (a ++ b) = all_digits a && all_digits b.
Proof.
  induction a as [|c a IH]; [reflexivity|].
  rewrite append_cons. cbn [all_digits]. rewrite IH. apply andb_assoc.
Qed.

Lemma length_app (a b : string) :
  String.length (a ++ b) = (String.length a + String.length b)%nat.
Proof.
  induction a as [|c a IH]; [reflexivity|].
  rewrite append_cons. cbn [String.length]. now rewrite IH.
Qed.

Lemma all_digits_uint (d : Decimal.uint) :
  all_digits (NilEmpty.string_of_uint d) = true.
Proof.
  induction d; cbn [NilEmpty.string_of_uint all_digits];
    [reflexivity | rewrite IHd; reflexivity ..].
Qed.

Lemma dec_string_digits (n : Z) : all_digits (dec_string n) = true.
Proof.
  unfold dec_string, NilZero.string_of_uint.
  destruct (N.to_uint (Z.to_N n)) as [|u|u|u|u|u|u|u|u|u|u];
    [reflexivity | ..];
    match goal with
    | |- all_digits (NilEmpty.string_of_uint ?d) = true =>
        exact (all_digits_uint d)
    end.
Qed.

Lemma dec_string_nonempty (n : Z) : (dec_string n =? "")%string = false.
Proof.
  unfold dec_string, NilZero.string_of_uint.
  destruct (N.to_uint (Z.to_N n)); reflexivity.
Qed.

Lemma digit_char_is_digit (d : Z) :
  (0 <= d < 10)%Z -> is_digit (digit_char d) = true.
Proof.
  intros Hd.
  assert (H : (d = 0 \/ d = 1 \/ d = 2 \/ d = 3 \/ d = 4 \/ d = 5
               \/ d = 6 \/ d = 7 \/ d = 8 \/ d = 9)%Z) by lia.
  repeat (destruct H as [-> | H]; [reflexivity|]). now subst d.
Qed.

Lemma frac_digits_digits (k : nat) (m : Z) :
  all_digits (frac_digits k m) = true.
Proof.
  revert m. induction k as [|k IH]; intros m; [reflexivity|].
  cbn [frac_digits]. rewrite all_digits_app, IH. cbn [all_digits].
  rewrite digit_char_is_digit; [reflexivity|].
  apply Z.mod_pos_bound. lia.
Qed.

Lemma frac_digits_length (k : nat) (m : Z) :
  String.length (frac_digits k m) = k.
Proof.
  revert m. induction k as [|k IH]; intros m; [reflexivity|].
  cbn [frac_digits]. rewrite length_app, IH. cbn [String.length]. lia.
Qed.

Lemma digit_not (c c' : ascii) :
  is_digit c = true -> is_digit c' = false -> (c =? c')%char = false.
Proof.
  intros Hc Hc'. destruct (c =? c')%char eqn:E; [|reflexivity].
  apply Ascii.eqb_eq in E. subst c'. congruence.
Qed.

Lemma split_dot_app (i f : string) :
  all_digits i = true -> split_dot (i ++ String "." f) = Some (i, f).
Proof.
  induction i as [|c i IH]; intros Hi; [reflexivity|].
  cbn [all_digits] in Hi. apply andb_prop in Hi as [Hc Hi].
  rewrite append_cons. cbn [split_dot].
  rewrite (digit_not c "." Hc eq_refl). now rewrite IH.
Qed.

Lemma strip_sign_digits (s : string) :
  (s =? "")%string = false -> all_digits s = true -> forall r,
  strip_sign (s ++ r) = s ++ r.
Proof.
  destruct s as [|c s]; [discriminate|]. intros _ Hs r.
  cbn [all_digits] in Hs. apply andb_prop in Hs as [Hc _].
  rewrite append_cons. cbn [strip_sign].
  now rewrite (digit_not c "-" Hc eq_refl).
Qed.


(** A numeral with a positive precision has the fixed-point shape. *)
Lemma format_fixed_shape (prec : nat) (q : Q) :
  fixed_shape (S prec) (format_fixed (S prec) q) = true.
Proof.
  unfold format_fixed.
  set (scale := (10 ^ Z.of_nat (S prec))%Z).
  set (n := round_half_even (Qabs q * inject_Z scale)).
  set (i := dec_string (n / scale)).
  set (f := frac_digits (S prec) (n mod scale)).
  assert (Hbody : split_dot (i ++ "." ++ f) = Some (i, f)).
  { apply split_dot_app. apply dec_string_digits. }
  assert (Hok : negb (i =? "")%string && all_digits i && all_digits f
                && (String.length f =? S prec)%nat = true).
  { unfold i at 1. rewrite dec_string_nonempty.
    unfold i, f. rewrite dec_string_digits, frac_digits_digits.
    rewrite frac_digits_length. now rewrite Nat.eqb_refl. }
  unfold fixed_shape. destruct (Qle_bool 0 q).
  - change ("" ++ i ++ "." ++ f) with (i ++ "." ++ f).
    rewrite strip_sign_digits;
      [| apply dec_string_nonempty | apply dec_string_digits].
    now rewrite Hbody.
  - change (strip_sign ("-" ++ i ++ "." ++ f)) with (i ++ "." ++ f).
    now rewrite Hbody.
Qed.

Lemma round_half_even_comp (x y : Q) :
  (x == y)%Q -> round_half_even x = round_half_even y.
Proof.
  intros E. unfold round_half_even.
  rewrite (Qfloor_comp x y E).
  assert (Ec : (x - inject_Z (Qfloor y) ?= 1 # 2)%Q
               = (y - inject_Z (Qfloor y) ?= 1 # 2)%Q).
  { apply Qcompare_comp; [|reflexivity]. now rewrite E. }
  now rewrite Ec.
Qed.

(** Equal numbers render alike. *)
Lemma format_fixed_comp (prec : nat) (q q' : Q) :
  (q == q')%Q -> format_fixed prec q = format_fixed prec q'.
Proof.
  intros E. unfold format_fixed.
  rewrite (Qleb_comp 0 0 (Qeq_refl 0) q q' E).
  rewrite (round_half_even_comp
             (Qabs q * inject_Z (10 ^ Z.of_nat prec))
             (Qabs q' * inject_Z (10 ^ Z.of_nat prec)));
    [reflexivity|].
  now rewrite E.
Qed.

End Rendering.

(** ** The script *)

(** The three sample packages print these lines. *)
Example run_packages :
  run packages
  = Ok [ "Тип тренировки: Swimming; Длительность: 1.000 ч.; " ++
         "Дистанция: 0.994 км; Ср. скорость: 1.000 км/ч; " ++
         "Потрачено ккал: 336.000.";
         "Тип тренировки: Running; Длительность: 1.000 ч.; " ++
         "Дистанция: 9.750 км; Ср. скорость: 9.750 км/ч; " ++
         "Потрачено ккал: 699.750.";
         "Тип тренировки: SportsWalking; Длительность: 1.000 ч.; " ++
         "Дистанция: 5.850 км; Ср. скорость: 5.850 км/ч; " ++
         "Потрачено ккал: 157.500." ].
Proof. vm_compute. reflexivity. Qed.

(** * Further properties of the code *)

(** ** Outcomes of the methods for any duration *)

Section Outcomes.

Local Open Scope Q_scope.

Lemma Qeq_bool_nonzero (x : Q) : ~ x == 0 -> Qeq_bool x 0 = false.
Proof.
  intros Hx. destruct (Qeq_bool x 0) eqn:E; [|reflexivity].
  apply Qeq_bool_eq in E. contradiction.
Qed.



Lemma floordiv_nonzero (a b : Q) :
  ~ b == 0 -> Py.floordiv a b = Ok (inject_Z (Qfloor (a / b))).
Proof. intros Hb. unfold Py.floordiv. now rewrite Qeq_bool_nonzero. Qed.





Lemma get_mean_speed_run_outcome (self : workout) :
  get_mean_speed self = (outcome get_mean_speed self, self).
Proof.
  pose proof (preserves_get_mean_speed self) as H.
  unfold final, outcome in *. destruct (get_mean_speed self) as [r s].
  cbn [fst snd] in *. now subst s.
Qed.

Lemma get_spent_calories_run_outcome (self : workout) :
  get_spent_calories self = (outcome get_spent_calories self, self).
Proof.
  pose proof (preserves_get_spent_calories self) as H.
  unfold final, outcome in *. destruct (get_spent_calories self) as [r s].
  cbn [fst snd] in *. now subst s.
Qed.



(** [show_training_info] in terms of the three methods it calls. *)
Lemma show_training_info_outcome (self : workout) :
  outcome show_training_info self
  = result_bind (outcome get_distance self) (fun distance =>
    result_bind (outcome get_mean_speed self) (fun speed =>
    result_bind (outcome get_spent_calories self) (fun calories =>
    Ok (InfoMessage.init (class_name self) (duration self)
                         distance speed calories)))).
Proof.
  unfold outcome at 1. unfold show_training_info, bind.
  unfold attr at 1 2. rewrite get_distance_run.
  rewrite get_mean_speed_run_outcome.
  unfold outcome at 2. rewrite get_distance_run. cbn [fst result_bind].
  destruct (outcome get_mean_speed self) as [sp|e]; [|reflexivity].
  rewrite get_spent_calories_run_outcome. cbn [result_bind].
  destruct (outcome get_spent_calories self); reflexivity.
Qed.




End Outcomes.

(** ** Composition and failure of [show_training_info] *)

Section Summary.

Local Open Scope Q_scope.

(** X1.  [show_training_info] returns exactly when [get_mean_speed] and
    [get_spent_calories] both return; its message then carries the class
    name, the stored duration and the three values those methods and
    [get_distance] return, with the default template.  When one of them
    raises, [show_training_info] raises the exception of the first that
    does, in the order distance, speed, calories. *)
Theorem show_training_info_composition (self : workout) :
  outcome show_training_info self
  = match outcome get_distance self, outcome get_mean_speed self,
          outcome get_spent_calories self with
    | Ok distance, Ok speed, Ok calories =>
        Ok (InfoMessage.mk (class_name self) (duration self) distance speed
                           calories InfoMessage.string_ru_default)
    | Raise e, _, _ => Raise e
    | Ok _, Raise e, _ => Raise e
    | Ok _, Ok _, Raise e => Raise e
    end.
Proof.
  rewrite show_training_info_outcome.
  destruct (outcome get_distance self); [|reflexivity].
  destruct (outcome get_mean_speed self); [|reflexivity].
  destruct (outcome get_spent_calories self); reflexivity.
Qed.





End Summary.

(** ** Sign, bounds and scaling of the calorie formulas *)

Section CalorieFacts.

Local Open Scope Q_scope.

















End CalorieFacts.

(** ** The factory: number of parameters, and what it builds *)

Section FactoryFacts.

Lemma traning_types_SWM : traning_types !! "SWM" = Some new_Swimming.
Proof. reflexivity. Qed.

Lemma traning_types_RUN : traning_types !! "RUN" = Some new_Running.
Proof. reflexivity. Qed.

Lemma traning_types_WLK : traning_types !! "WLK" = Some new_SportsWalking.
Proof. reflexivity. Qed.

Lemma read_package_SWM (data : list Q) :
  read_package "SWM" data = new_Swimming data.
Proof.
  rewrite read_package_known by tauto. now rewrite traning_types_SWM.
Qed.

Lemma read_package_RUN (data : list Q) :
  read_package "RUN" data = new_Running data.
Proof.
  rewrite read_package_known by tauto. now rewrite traning_types_RUN.
Qed.

Lemma read_package_WLK (data : list Q) :
  read_package "WLK" data = new_SportsWalking data.
Proof.
  rewrite read_package_known by tauto. now rewrite traning_types_WLK.
Qed.

(** X10.  For a recognised code [read_package] builds an instance exactly
    when the list holds as many parameters as the class takes (five for
    "SWM", three for "RUN", four for "WLK"), and raises [TypeError] for
    every other length, the empty list included. *)
Theorem read_package_arity (data : list Q) :
  ((exists self, read_package "SWM" data = Ok self) <-> List.length data = 5%nat)
  /\ (read_package "SWM" data = Raise TypeError <-> List.length data <> 5%nat)
  /\ ((exists self, read_package "RUN" data = Ok self)
      <-> List.length data = 3%nat)
  /\ (read_package "RUN" data = Raise TypeError <-> List.length data <> 3%nat)
  /\ ((exists self, read_package "WLK" data = Ok self)
      <-> List.length data = 4%nat)
  /\ (read_package "WLK" data = Raise TypeError <-> List.length data <> 4%nat).
Proof.
  rewrite read_package_SWM, read_package_RUN, read_package_WLK.
  unfold new_Swimming, new_Running, new_SportsWalking.
  destruct data as [|a [|d [|w [|x [|y [|z data]]]]]]; cbn [List.length];
    repeat split;
    try (intros [self H]; discriminate H);
    try (intros H; discriminate H);
    try (intros _; discriminate);
    try (intros _; eexists; reflexivity);
    try (intros _; reflexivity);
    try (intros H; exfalso; apply H; reflexivity);
    try (intros _ H; discriminate H);
    try (intros _ H; lia).
Qed.

Lemma read_package_arity_witness :
  List.length [15000; 1; 75]%Q = 3%nat /\
  exists self, read_package "RUN" [15000; 1; 75]%Q = Ok self.
Proof.
  split; [reflexivity|].
  exact (proj2 (proj1 (proj2 (proj2
           (read_package_arity [15000; 1; 75]%Q)))) eq_refl).
Defined.

(** X11.  What [read_package] returns determines its arguments: a Running
    instance comes from "RUN" and its three attributes in order, a
    SportsWalking instance from "WLK" and its four, a Swimming instance
    from "SWM" and its five; an instance of the base class is never
    returned. *)
Theorem read_package_inversion (code : string) (data : list Q)
    (self : workout) :
  read_package code data = Ok self ->
  match self with
  | Training _ _ _ => False
  | Running a d w => code = "RUN" /\ data = [a; d; w]
  | SportsWalking a d w h => code = "WLK" /\ data = [a; d; w; h]
  | Swimming a d w l c => code = "SWM" /\ data = [a; d; w; l; c]
  end.
Proof.
  intros H. destruct (code_cases code) as [Hk|(H1 & H2 & H3)].
  - destruct Hk as [-> | [-> | ->]].
    + rewrite read_package_SWM in H. unfold new_Swimming in H.
      destruct data as [|a [|d [|w [|l [|c [|x data]]]]]];
        try discriminate H.
      injection H as <-. now split.
    + rewrite read_package_RUN in H. unfold new_Running in H.
      destruct data as [|a [|d [|w [|x data]]]]; try discriminate H.
      injection H as <-. now split.
    + rewrite read_package_WLK in H. unfold new_SportsWalking in H.
      destruct data as [|a [|d [|w [|h [|x data]]]]]; try discriminate H.
      injection H as <-. now split.
  - rewrite (read_package_unknown code data H1 H2 H3) in H. discriminate H.
Qed.

Lemma read_package_inversion_witness :
  read_package "WLK" [9000; 1; 75; 180]%Q = Ok (SportsWalking 9000 1 75 180)
  /\ "WLK" = "WLK" /\ [9000; 1; 75; 180]%Q = [9000; 1; 75; 180]%Q.
Proof.
  assert (H : read_package "WLK" [9000; 1; 75; 180]%Q
              = Ok (SportsWalking 9000 1 75 180)) by reflexivity.
  split; [exact H|].
  exact (read_package_inversion "WLK" [9000; 1; 75; 180]%Q
           (SportsWalking 9000 1 75 180) H).
Defined.

End FactoryFacts.

(** ** [main] and the script *)

Section Script.

Import Format.







Lemma run_app (ps qs : list (string * list Q)) :
  run (ps ++ qs)
  = result_bind (run ps) (fun lines =>
    result_map (app lines) (run qs)).
Proof.
  induction ps as [|[code data] ps IH].
  - cbn [app run result_bind]. unfold result_map.
    destruct (run qs); reflexivity.
  - cbn [app run]. rewrite IH.
    destruct (read_package code data) as [training|e]; [|reflexivity].
    cbn [result_bind].
    destruct (outcome main training) as [line|e]; [|reflexivity].
    cbn [result_bind].
    destruct (run ps) as [lines|e]; [|reflexivity].
    cbn [result_bind result_map].
    destruct (run qs); reflexivity.
Qed.

Lemma run_length (pkgs : list (string * list Q)) (lines : list string) :
  run pkgs = Ok lines -> List.length lines = List.length pkgs.
Proof.
  revert lines. induction pkgs as [|[code data] pkgs IH]; intros lines H.
  - cbn in H. injection H as <-. reflexivity.
  - cbn [run] in H.
    destruct (read_package code data) as [training|e]; [|discriminate H].
    cbn [result_bind] in H.
    destruct (outcome main training) as [line|e]; [|discriminate H].
    cbn [result_bind] in H.
    destruct (run pkgs) as [rest|e]; [|discriminate H].
    cbn in H. injection H as <-. cbn [List.length]. now rewrite (IH rest).
Qed.

(** X14.  The script prints the lines of the packages in their order:
    the run of a list followed by another is the run of the first, then, if
    it did not stop, the run of the second, its lines put after; a run that
    ends prints one line for each package; and a failing package stops the
    script, whatever follows it. *)
Theorem run_in_order (ps qs : list (string * list Q)) :
  run (ps ++ qs)
  = match run ps with
    | Ok lines => match run qs with
                  | Ok more => Ok (lines ++ more)%list
                  | Raise e => Raise e
                  end
    | Raise e => Raise e
    end
  /\ (forall lines, run ps = Ok lines ->
                    List.length lines = List.length ps)
  /\ (forall e, run ps = Raise e -> run (ps ++ qs) = Raise e).
Proof.
  split; [|split].
  - rewrite run_app. destruct (run ps); [|reflexivity].
    cbn [result_bind]. unfold result_map. destruct (run qs); reflexivity.
  - exact (run_length ps).
  - intros e He. rewrite run_app, He. reflexivity.
Qed.

Lemma run_in_order_witness :
  run [("XYZ", [1]%Q)] = Raise (ValueError "XYZ - неизвестный тип тренировки.")
  /\ run ([("XYZ", [1]%Q)] ++ packages)
     = Raise (ValueError "XYZ - неизвестный тип тренировки.").
Proof.
  assert (H : run [("XYZ", [1]%Q)]
              = Raise (ValueError "XYZ - неизвестный тип тренировки."))
    by reflexivity.
  split; [exact H|].
  exact (proj2 (proj2 (run_in_order [("XYZ", [1]%Q)] packages)) _ H).
Defined.

End Script.

(** ** Speed against distance, and the template of a message *)

Section Consistency.

Local Open Scope Q_scope.



End Consistency.

Section Template.

Import Format.

Lemma format_from_literal (kw : kwargs) (s : string) :
  no_braces s = true -> format_from kw InText s = Ok s.
Proof.
  induction s as [|c s IH]; [reflexivity|].
  cbn [no_braces format_from]. intros H.
  apply andb_prop in H as [H Hs]. apply andb_prop in H as [Ho Hc].
  apply negb_true_iff in Ho, Hc. rewrite Ho, Hc, (IH Hs). reflexivity.
Qed.

(** X16.  [get_message] renders the template the message itself carries:
    a message built with a [string_ru] that has no braces renders as that
    text, whatever its metrics are. *)
Theorem get_message_own_template (tt : string) (du di sp ca : Q)
    (template : string) :
  no_braces template = true ->
  InfoMessage.get_message (InfoMessage.mk tt du di sp ca template)
  = Ok template.
Proof.
  intros H. unfold InfoMessage.get_message, format.
  cbn [InfoMessage.string_ru]. now apply format_from_literal.
Qed.

Lemma get_message_own_template_witness :
  no_braces "Running: done." = true /\
  InfoMessage.get_message
    (InfoMessage.mk "Running" 1 9.75 9.75 699.75 "Running: done.")
  = Ok "Running: done.".
Proof.
  split; [reflexivity|].
  exact (get_message_own_template "Running" 1 9.75 9.75 699.75
           "Running: done." eq_refl).
Defined.

End Template.


(** * Properties of the module over binary64 numbers *)

(** ** Facts about binary64 operations *)

Section FloatFacts.

Import PrimFloat SpecFloat FloatOps FloatAxioms B64.

Local Open Scope float_scope.

















End FloatFacts.

(** ** Operations on numbers with a float operand *)

Section NumOps.

Import PrimFloat SpecFloat FloatOps FloatAxioms B64.

Local Open Scope float_scope.










End NumOps.

(** ** SportsWalking calories on binary64 numbers *)

Section WalkingBinary64.

Import PrimFloat SpecFloat FloatOps FloatAxioms B64.

Local Open Scope float_scope.




(** The last bit of the library's [pow] can decide the result: for 19800
    steps in one hour, weight 75 and height 165.6369 a library that
    returns the float next above the correctly rounded square takes the
    calories from 157.5 to 288. *)
Example library_last_bit :
  let walk := SportsWalking (PInt 19800) (PInt 1) (PInt 75)
                            (PFloat 165.6369) in
  next_up 165.63689999999997 = 165.6369
  /\ outcome (get_spent_calories (L := correctly_rounded)) walk
     = Ok (PFloat 157.50000000000003)
  /\ outcome (get_spent_calories (L := fun x => next_up (x * x))) walk
     = Ok (PFloat 288.00000000000006).
Proof. repeat split; vm_compute; reflexivity. Qed.




End WalkingBinary64.

(** ** Rendering numbers *)

Section Numerals.

Import Format.











End Numerals.

(** ** Rendering a message on binary64 numbers *)

Section MessageBinary64.

Import PrimFloat SpecFloat FloatOps FloatAxioms B64.
Import Format.








End MessageBinary64.

(** ** The exceptions of the script on binary64 numbers *)

Section ScriptBinary64.

Import PrimFloat SpecFloat FloatOps FloatAxioms B64.

Context {L : Libm}.

Lemma safe_ret {A : Type} (I : workout -> Prop) (P : exn -> Prop)
    (Q : A -> Prop) (a : A) :
  Q a -> safe I P Q (B64.ret a).
Proof. intros Ha self _. now split. Qed.

Lemma safe_attr {A : Type} (I : workout -> Prop) (P : exn -> Prop)
    (f : workout -> A) :
  safe I P any (B64.attr f).
Proof. intros self _. now split. Qed.

Lemma safe_attr_opt {A : Type} (I : workout -> Prop) (P : exn -> Prop)
    (f : workout -> result A) :
  (forall self, I self -> within P any (f self)) ->
  safe I P any (B64.attr_opt f).
Proof. intros Hf self HI. split; [reflexivity|]. exact (Hf self HI). Qed.

Lemma safe_lift {A : Type} (I : workout -> Prop) (P : exn -> Prop)
    (r : result A) :
  within P any r -> safe I P any (B64.lift r).
Proof. intros Hr self _. now split. Qed.

Lemma safe_bind {A B : Type} (I : workout -> Prop) (P : exn -> Prop)
    (Q : A -> Prop) (R : B -> Prop) (m : M A) (k : A -> M B) :
  safe I P Q m -> (forall a, Q a -> safe I P R (k a)) ->
  safe I P R (B64.bind m k).
Proof.
  intros Hm Hk self HI. destruct (Hm self HI) as [Hs Hw].
  unfold final, outcome, B64.bind in *.
  destruct (m self) as [[a|e] self']; cbn [fst snd] in *; subst self'.
  - exact (Hk a Hw self HI).
  - now split.
Qed.

Lemma safe_any {A : Type} (I : workout -> Prop) (P : exn -> Prop)
    (Q : A -> Prop) (m : M A) :
  safe I P Q m -> safe I P any m.
Proof.
  intros Hm self HI. destruct (Hm self HI) as [Hs Hw]. split; [exact Hs|].
  unfold within in *. now destruct (outcome m self).
Qed.

Lemma to_float_within (x : num) :
  within (fun e => e = OverflowError) any (to_float x).
Proof.
  destruct x as [z|f]; [|exact I]. unfold to_float, int_to_float.
  now destruct (is_infinity _).
Qed.

Lemma float_op_within (op : float -> float -> float) (a b : num) :
  within numeric any (float_op op a b).
Proof.
  unfold float_op.
  pose proof (to_float_within a) as Ha. pose proof (to_float_within b) as Hb.
  destruct (to_float a); [|now right]. cbn [result_bind].
  destruct (to_float b); [exact I|now right].
Qed.

Lemma mul_within (a b : num) : within numeric any (mul a b).
Proof. destruct a, b; try exact I; apply float_op_within. Qed.

Lemma add_within (a b : num) : within numeric any (add a b).
Proof. destruct a, b; try exact I; apply float_op_within. Qed.

Lemma sub_within (a b : num) : within numeric any (sub a b).
Proof. destruct a, b; try exact I; apply float_op_within. Qed.

Lemma float_div_within (f : float -> float -> float) (a b : num) :
  within numeric any
    (result_bind (to_float a) (fun x =>
     result_bind (to_float b) (fun y =>
     if (y =? 0)%float then Raise ZeroDivisionError
     else Ok (PFloat (f x y))))).
Proof.
  pose proof (to_float_within a) as Ha. pose proof (to_float_within b) as Hb.
  destruct (to_float a); [|now right]. cbn [result_bind].
  destruct (to_float b) as [y|]; [|now right]. cbn [result_bind].
  destruct (y =? 0)%float; [now left|exact I].
Qed.

Lemma truediv_within (a b : num) : within numeric any (truediv a b).
Proof.
  destruct a as [x|x], b as [y|y];
    try exact (float_div_within PrimFloat.div _ _).
  unfold truediv. destruct (y =? 0)%Z; [now left|].
  unfold int_true_divide. destruct (is_infinity _); [now right|exact I].
Qed.

Lemma floordiv_within (a b : num) : within numeric any (floordiv a b).
Proof.
  destruct a as [x|x], b as [y|y];
    try exact (float_div_within float_floor_div _ _).
  unfold floordiv. destruct (y =? 0)%Z; [now left|exact I].
Qed.

Lemma pow_within (a : num) : within numeric any (pow a COEFF_SQUARE).
Proof.
  destruct a as [x|x]; [exact I|]. unfold B64.pow, COEFF_SQUARE.
  cbn [Z.eqb Pos.eqb]. unfold float_square.
  destruct (is_nan x); [exact I|]. destruct (is_infinity x); [exact I|].
  destruct (x =? 0)%float; [exact I|]. cbv zeta.
  destruct (_ =? 1)%float; [exact I|].
  destruct (is_infinity _); [now right|exact I].
Qed.

Ltac safe_prim :=
  first
    [ apply safe_attr
    | apply safe_lift;
      first [ apply mul_within | apply add_within | apply sub_within
            | apply truediv_within | apply floordiv_within
            | apply pow_within ] ].

Ltac safe_run tac :=
  repeat first
    [ apply safe_ret; exact I
    | eapply safe_bind; [first [safe_prim | tac]|intros ? _] ].

Lemma safe_get_distance (I : workout -> Prop) :
  safe I numeric any get_distance.
Proof. unfold get_distance. safe_run fail. Qed.

Lemma safe_get_mean_speed : safe any numeric any get_mean_speed.
Proof.
  assert (HT : safe any numeric any Training_get_mean_speed)
    by (unfold Training_get_mean_speed;
        safe_run ltac:(apply safe_get_distance)).
  assert (HS : safe (fun self => exists a d w l c,
                         self = Swimming a d w l c)
                    numeric any Swimming_get_mean_speed).
  { unfold Swimming_get_mean_speed.
    safe_run ltac:(apply safe_attr_opt;
                   intros ? (? & ? & ? & ? & ? & ->); exact I). }
  intros self _. destruct self as [a d w|a d w|a d w h|a d w l c].
  - exact (HT _ I).
  - exact (HT _ I).
  - exact (HT _ I).
  - apply HS. now exists a, d, w, l, c.
Qed.

Lemma safe_get_mean_speed_on (I : workout -> Prop) :
  safe I numeric any get_mean_speed.
Proof. intros self _. exact (safe_get_mean_speed self Logic.I). Qed.

Lemma safe_get_spent_calories :
  safe subclass numeric any get_spent_calories.
Proof.
  assert (HR : safe any numeric any Running_get_spent_calories)
    by (unfold Running_get_spent_calories;
        safe_run ltac:(apply safe_get_mean_speed_on)).
  assert (HW : safe (fun self => exists a d w h,
                         self = SportsWalking a d w h)
                    numeric any SportsWalking_get_spent_calories).
  { unfold SportsWalking_get_spent_calories.
    safe_run ltac:(first
      [ apply safe_get_mean_speed_on
      | apply safe_attr_opt; intros ? (? & ? & ? & ? & ->); exact I ]). }
  assert (HS : safe any numeric any Swimming_get_spent_calories)
    by (unfold Swimming_get_spent_calories;
        safe_run ltac:(apply safe_get_mean_speed_on)).
  intros self Hc. destruct self as [a d w|a d w|a d w h|a d w l c].
  - contradiction.
  - exact (HR _ I).
  - apply HW. now exists a, d, w, h.
  - exact (HS _ I).
Qed.

(** [show_training_info] builds its message with the default template. *)
Lemma safe_show_training_info :
  safe subclass numeric
       (fun info => exists tt du di sp ca,
            info = InfoMessage_init tt du di sp ca)
       show_training_info.
Proof.
  unfold show_training_info.
  eapply safe_bind; [apply safe_attr|intros name _].
  eapply safe_bind; [apply safe_attr|intros du _].
  eapply safe_bind; [apply safe_get_distance|intros di _].
  eapply safe_bind; [apply safe_get_mean_speed_on|intros sp _].
  eapply safe_bind; [apply safe_get_spent_calories|intros ca _].
  apply safe_ret. now exists name, du, di, sp, ca.
Qed.

Lemma num_format_within (x : num) :
  within numeric any (num_format 3 x).
Proof.
  unfold num_format. pose proof (to_float_within x) as H.
  destruct (to_float x); [exact I|now right].
Qed.

Lemma get_message_init_within (tt : string) (du di sp ca : num) :
  within numeric any (get_message (InfoMessage_init tt du di sp ca)).
Proof.
  unfold get_message, InfoMessage_init.
  pose proof (num_format_within du) as Hdu.
  pose proof (num_format_within di) as Hdi.
  pose proof (num_format_within sp) as Hsp.
  pose proof (num_format_within ca) as Hca.
  lazy -[num_format within numeric].
  destruct (num_format 3 du); [|exact Hdu].
  lazy -[num_format within numeric].
  destruct (num_format 3 di); [|exact Hdi].
  lazy -[num_format within numeric].
  destruct (num_format 3 sp); [|exact Hsp].
  lazy -[num_format within numeric].
  destruct (num_format 3 ca); [exact I|exact Hca].
Qed.

Lemma safe_main : safe subclass numeric any B64.main.
Proof.
  unfold B64.main.
  eapply safe_bind; [apply safe_show_training_info|].
  intros info (tt & du & di & sp & ca & ->).
  eapply safe_bind;
    [apply safe_lift; apply get_message_init_within|intros ? _].
  apply safe_ret. exact I.
Qed.

Lemma B64_traning_types_unknown (code : string) :
  code <> "SWM" -> code <> "RUN" -> code <> "WLK" ->
  B64.traning_types !! code = None.
Proof.
  intros H1 H2 H3. unfold B64.traning_types.
  rewrite !lookup_insert_ne by congruence. apply lookup_empty.
Qed.

Lemma B64_read_package_unknown (code : string) (data : list num) :
  code <> "SWM" -> code <> "RUN" -> code <> "WLK" ->
  B64.read_package code data
  = Raise (ValueError (code ++ " - неизвестный тип тренировки.")).
Proof.
  intros H1 H2 H3. unfold B64.read_package.
  rewrite bool_decide_true; [reflexivity|].
  apply not_elem_of_dom. now apply B64_traning_types_unknown.
Qed.

Lemma B64_read_package_known (code : string) (data : list num) :
  code = "SWM" \/ code = "RUN" \/ code = "WLK" ->
  B64.read_package code data
  = if (code =? "SWM")%string then B64.new_Swimming data
    else if (code =? "RUN")%string then B64.new_Running data
         else B64.new_SportsWalking data.
Proof.
  intros H. unfold B64.read_package.
  rewrite bool_decide_false.
  - destruct H as [-> | [-> | ->]]; reflexivity.
  - intros Hn. apply not_elem_of_dom in Hn.
    destruct H as [-> | [-> | ->]]; discriminate Hn.
Qed.

(** What [read_package] gives: an instance of a subclass, [TypeError], or
    [ValueError] for a code that is not recognised. *)
Lemma B64_read_package_cases (code : string) (data : list num) :
  match B64.read_package code data with
  | Ok training => subclass training
  | Raise e =>
      e = TypeError
      \/ (code <> "SWM" /\ code <> "RUN" /\ code <> "WLK"
          /\ e = ValueError (code ++ " - неизвестный тип тренировки."))
  end.
Proof.
  destruct (code_cases code) as [Hk|(H1 & H2 & H3)].
  - rewrite (B64_read_package_known code data Hk).
    destruct Hk as [-> | [-> | ->]]; cbn [String.eqb Ascii.eqb Bool.eqb].
    + unfold B64.new_Swimming.
      destruct data as [|? [|? [|? [|? [|? [|? ?]]]]]];
        first [exact I | now left].
    + unfold B64.new_Running.
      destruct data as [|? [|? [|? [|? ?]]]]; first [exact I | now left].
    + unfold B64.new_SportsWalking.
      destruct data as [|? [|? [|? [|? [|? ?]]]]];
        first [exact I | now left].
  - rewrite (B64_read_package_unknown code data H1 H2 H3). right.
    repeat split; assumption || reflexivity.
Qed.

Lemma truediv_ok_nonzero (a b r : num) :
  truediv a b = Ok r -> num_is_zero b = false.
Proof.
  assert (Hg : result_bind (to_float a) (fun x =>
               result_bind (to_float b) (fun y =>
               if (y =? 0)%float then Raise ZeroDivisionError
               else Ok (PFloat (x / y)%float))) = Ok r ->
               num_is_zero b = false).
  { destruct (to_float a) as [x|]; [cbn [result_bind]|discriminate].
    destruct b as [[|p|p]|y]; cbn [num_is_zero to_float result_bind].
    - vm_compute. discriminate.
    - reflexivity.
    - reflexivity.
    - destruct (y =? 0)%float; [discriminate|reflexivity]. }
  destruct a as [x|x]; [|exact Hg].
  destruct b as [y|y]; [|exact Hg].
  cbn [truediv num_is_zero]. destruct (y =? 0)%Z; [discriminate|reflexivity].
Qed.

Lemma floordiv_ok_nonzero (a b r : num) :
  floordiv a b = Ok r -> num_is_zero b = false.
Proof.
  assert (Hg : result_bind (to_float a) (fun x =>
               result_bind (to_float b) (fun y =>
               if (y =? 0)%float then Raise ZeroDivisionError
               else Ok (PFloat (float_floor_div x y)))) = Ok r ->
               num_is_zero b = false).
  { destruct (to_float a) as [x|]; [cbn [result_bind]|discriminate].
    destruct b as [[|p|p]|y]; cbn [num_is_zero to_float result_bind].
    - vm_compute. discriminate.
    - reflexivity.
    - reflexivity.
    - destruct (y =? 0)%float; [discriminate|reflexivity]. }
  destruct a as [x|x]; [|exact Hg].
  destruct b as [y|y]; [|exact Hg].
  cbn [floordiv num_is_zero].
  destruct (y =? 0)%Z; [discriminate|reflexivity].
Qed.

End ScriptBinary64.

(** ** What the script and [show_training_info] can do *)

Section ScriptOutcomes.

Import PrimFloat SpecFloat FloatOps FloatAxioms B64.

(** Splits a computation on the result of its first stuck operation. *)
Ltac case_result H :=
  match type of H with
  | context [match ?r with Ok _ => _ | Raise _ => _ end] =>
      lazymatch r with
      | context [match _ with Ok _ => _ | Raise _ => _ end] => fail
      | _ => let E := fresh "E" in
             destruct r eqn:E; cbn [fst] in H; try discriminate H
      end
  end.

(** X4, on binary64 numbers.  [show_training_info] returns a message only
    for an instance of Running, SportsWalking or Swimming whose duration is
    not zero and, for SportsWalking, whose height is not zero; a non-zero
    duration and height are not enough, since the numbers may leave the
    range of floats. *)
Theorem show_training_info_returns_only {L : Libm} (self : workout)
    (info : InfoMessage) :
  outcome show_training_info self = Ok info ->
  subclass self
  /\ num_is_zero (duration self) = false
  /\ (forall h, height self = Ok h -> num_is_zero h = false)
  /\ outcome (show_training_info (L := correctly_rounded))
       (SportsWalking (PInt (10 ^ 200)) (PInt 1) (PInt 75) (PInt 180))
     = Raise OverflowError.
Proof.
  intros H.
  assert (Hover : outcome (show_training_info (L := correctly_rounded))
                    (SportsWalking (PInt (10 ^ 200)) (PInt 1) (PInt 75)
                                   (PInt 180))
                  = Raise OverflowError) by (vm_compute; reflexivity).
  destruct self as [a d w|a d w|a d w h|a d w l c];
    cbv -[B64.mul B64.add B64.sub truediv floordiv B64.pow num_is_zero
          InfoMessage_init] in H;
    repeat case_result H.
  - split; [exact I|]. split; [|split; [discriminate|exact Hover]].
    cbn [duration]. eapply truediv_ok_nonzero; eassumption.
  - split; [exact I|]. split; [|split; [|exact Hover]].
    + cbn [duration]. eapply truediv_ok_nonzero; eassumption.
    + intros h0 Hh. cbn [height] in Hh. injection Hh as <-.
      eapply floordiv_ok_nonzero; eassumption.
  - split; [exact I|]. split; [|split; [discriminate|exact Hover]].
    cbn [duration]. eapply truediv_ok_nonzero; eassumption.
Qed.

Lemma show_training_info_returns_only_witness :
  (exists info,
      outcome (show_training_info (L := correctly_rounded))
        (SportsWalking (PInt 9000) (PInt (-1)) (PInt 75) (PInt (-180)))
      = Ok info)
  /\ num_is_zero (PInt (-1)) = false
  /\ num_is_zero (PInt (-180)) = false.
Proof.
  assert (E : exists info,
             outcome (show_training_info (L := correctly_rounded))
               (SportsWalking (PInt 9000) (PInt (-1)) (PInt 75)
                              (PInt (-180)))
             = Ok info) by (eexists; vm_compute; reflexivity).
  split; [exact E|]. destruct E as [info E].
  destruct (show_training_info_returns_only (L := correctly_rounded)
              _ info E) as (_ & Hd & Hh & _).
  split; [exact Hd|]. exact (Hh (PInt (-180)) eq_refl).
Defined.

(** X13, on binary64 numbers.  Whatever the packages are, the script stops
    only with [ValueError] for the unknown code of one of them, [TypeError]
    for a wrong number of parameters, [ZeroDivisionError] or
    [OverflowError]; it never raises [NotImplementedError], and rendering
    raises nothing else. *)
Theorem run_raises_only_binary64 {L : Libm}
    (pkgs : list (string * list num)) (e : exn) :
  B64.run pkgs = Raise e ->
  e = TypeError
  \/ e = ZeroDivisionError
  \/ e = OverflowError
  \/ exists code data,
       In (code, data) pkgs
       /\ code <> "SWM" /\ code <> "RUN" /\ code <> "WLK"
       /\ e = ValueError (code ++ " - неизвестный тип тренировки.").
Proof.
  induction pkgs as [|[code data] pkgs IH]; [discriminate|].
  cbn [B64.run]. intros H.
  pose proof (B64_read_package_cases code data) as Hr.
  destruct (B64.read_package code data) as [training|e0].
  - cbn [result_bind] in H.
    pose proof (proj2 (safe_main training Hr)) as Hm.
    destruct (outcome B64.main training) as [line|e1].
    + cbn [result_bind] in H.
      destruct (B64.run pkgs) as [lines|e2]; [discriminate H|].
      cbn in H. injection H as <-.
      destruct (IH eq_refl)
        as [-> | [-> | [-> | (c & dt & Hin & Hc1 & Hc2 & Hc3 & ->)]]];
        [now left|now right; left|now right; right; left|].
      right; right; right. exists c, dt. split; [now right|].
      repeat split; assumption.
    + cbn [result_bind] in H. injection H as <-.
      destruct Hm as [-> | ->]; [now right; left|now right; right; left].
  - cbn [result_bind] in H. injection H as <-.
    destruct Hr as [-> | (H1 & H2 & H3 & ->)]; [now left|].
    right; right; right. exists code, data. split; [now left|].
    repeat split; assumption || reflexivity.
Qed.

Lemma run_raises_only_binary64_witness :
  B64.run (L := correctly_rounded)
    [("RUN", [PInt (10 ^ 400); PInt 1; PInt 75])]
  = Raise OverflowError
  /\ (OverflowError = TypeError
      \/ OverflowError = ZeroDivisionError
      \/ OverflowError = OverflowError
      \/ exists code data,
           In (code, data) [("RUN", [PInt (10 ^ 400); PInt 1; PInt 75])]
           /\ code <> "SWM" /\ code <> "RUN" /\ code <> "WLK"
           /\ OverflowError
              = ValueError (code ++ " - неизвестный тип тренировки.")).
Proof.
  assert (H : B64.run (L := correctly_rounded)
                [("RUN", [PInt (10 ^ 400); PInt 1; PInt 75])]
              = Raise OverflowError) by (vm_compute; reflexivity).
  split; [exact H|].
  exact (run_raises_only_binary64 (L := correctly_rounded) _
           OverflowError H).
Defined.

End ScriptOutcomes.
